(** * OpenClaw + Purdue GenAI Studio integration: a shallow embedding

    This development embeds [examples/openclaw_genai_integration.py]:
    the class [PurdueGenAIProvider] (an HTTP client for an OpenAI-style
    chat-completion API) and the class [OpenClawAgent] (a conversation
    wrapper that keeps a linear history of messages).

    Python objects are records, methods are computations in a small
    state-and-exception monad over the object ([self]), Python values
    coming from [response.json()] are a tagged union [value], dictionaries
    are finite maps with string keys, and the [requests] module is a
    record of two functions, so every statement quantifies over every
    behaviour of the remote server. *)

From Stdlib Require Import ZArith String Ascii DecimalString Floats Lia.
From stdpp Require Import gmap strings list fin_maps.

Set Warnings "-register-all,-inexact-float".
Local Open Scope string_scope.
Local Open Scope Z_scope.

(** ** Python values *)

(** What [json.loads] can produce, which is also what the code builds with
    dict and list literals: [None], [bool], [int], [float], [str], [list]
    and [dict] with string keys.  A Python [float] is a binary64 number. *)
Inductive value : Type :=
  | PyNone
  | PyBool (b : bool)
  | PyInt (z : Z)
  | PyFloat (f : PrimFloat.float)
  | PyStr (s : string)
  | PyList (l : list value)
  | PyDict (d : gmap string value).

(** The two kinds of subscript the code uses: [x["name"]] and [x[0]]. *)
Inductive key : Type :=
  | KStr (s : string)
  | KInt (i : Z).

(** ** Exceptions *)

(** The classes derived from Python's [Exception] that this code raises or
    lets through.  [Exception msg] is the plain [raise Exception(msg)] of
    the provider; [RequestException] stands for the family raised by
    [requests] when the call cannot complete (connection refused, timeout);
    [JSONDecodeError] is raised by [response.json()] on a body that is not
    JSON; [KeyError], [IndexError] and [TypeError] come from subscripting.
    System-exiting signals ([KeyboardInterrupt], [SystemExit]) are not
    errors of the program and are not modelled. *)
Inductive exn : Type :=
  | Exception (msg : string)
  | RequestException (msg : string)
  | JSONDecodeError (msg : string)
  | KeyError (k : key)
  | IndexError (msg : string)
  | TypeError (msg : string).

(** [str(n)] for an [int]. *)
Definition str_int (z : Z) : string := NilZero.string_of_int (Z.to_int z).

(** [repr(s)] for a string without quotes, backslashes or control
    characters, which is the case of every key the code subscripts with. *)
Definition repr_str (s : string) : string := "'" +:+ s +:+ "'".

(** [str(e)]: the message for the classes with one, [repr] of the key for
    a [KeyError]. *)
Definition str_exn (e : exn) : string :=
  match e with
  | Exception msg | RequestException msg | JSONDecodeError msg
  | IndexError msg | TypeError msg => msg
  | KeyError (KStr s) => repr_str s
  | KeyError (KInt i) => str_int i
  end.

(** [type(v).__name__]. *)
Definition type_name (v : value) : string :=
  match v with
  | PyNone => "NoneType"
  | PyBool _ => "bool"
  | PyInt _ => "int"
  | PyFloat _ => "float"
  | PyStr _ => "str"
  | PyList _ => "list"
  | PyDict _ => "dict"
  end.

(** Sequence indexing [l[i]]: a negative index counts from the end. *)
Definition index {A : Type} (l : list A) (i : Z) : option A :=
  if 0 <=? i then l !! Z.to_nat i
  else if 0 <=? i + Z.of_nat (length l) then l !! Z.to_nat (i + Z.of_nat (length l))
  else None.

(** The characters of a string, each as a one-character string. *)
Fixpoint chars (s : string) : list value :=
  match s with
  | EmptyString => []
  | String c s' => PyStr (String c EmptyString) :: chars s'
  end.

(** [v[k]] (that is, [type(v).__getitem__]). *)
Definition getitem (v : value) (k : key) : exn + value :=
  match v, k with
  | PyDict d, KStr s =>
      match d !! s with
      | Some x => inr x
      | None => inl (KeyError k)
      end
  | PyDict _, KInt _ => inl (KeyError k)
  | PyList l, KInt i =>
      match index l i with
      | Some x => inr x
      | None => inl (IndexError "list index out of range")
      end
  | PyList _, KStr _ =>
      inl (TypeError "list indices must be integers or slices, not str")
  | PyStr s, KInt i =>
      match index (chars s) i with
      | Some x => inr x
      | None => inl (IndexError "string index out of range")
      end
  | PyStr _, KStr _ =>
      inl (TypeError "string indices must be integers, not 'str'")
  | _, _ => inl (TypeError ("'" +:+ type_name v +:+ "' object is not subscriptable"))
  end.

(** [iter(v)], run to the end: the elements of a list, the keys of a dict,
    the characters of a string; the other types are not iterable. *)
Definition iter (v : value) : exn + list value :=
  match v with
  | PyList l => inr l
  | PyDict d => inr (PyStr <$> (map_to_list d).*1)
  | PyStr s => inr (chars s)
  | _ => inl (TypeError ("'" +:+ type_name v +:+ "' object is not iterable"))
  end.

(** Truth value of an optional string, as in [if s:] and [s or default]:
    [None] and the empty string are false. *)
Definition truthy (o : option string) : bool :=
  match o with
  | Some EmptyString | None => false
  | Some _ => true
  end.

(** [o or default]. *)
Definition or_default (o : option string) (default : string) : string :=
  match o with
  | Some s => if truthy o then s else default
  | None => default
  end.

(** [f"{o}"] for an optional string. *)
Definition format (o : option string) : string :=
  match o with
  | Some s => s
  | None => "None"
  end.

(** ** The state-and-exception monad of a method

    A method body runs on its object: it reads and updates [self], and
    either returns or raises.  What was written to [self] before a [raise]
    stays written. *)
Definition M (S A : Type) : Type := S -> (exn + A) * S.

Definition ret {S A} (x : A) : M S A := fun self => (inr x, self).

Definition bind {S A B} (c : M S A) (k : A -> M S B) : M S B :=
  fun self =>
    match c self with
    | (inr x, self') => k x self'
    | (inl e, self') => (inl e, self')
    end.

Definition raise {S A} (e : exn) : M S A := fun self => (inl e, self).

(** The outcome of a call that does not touch [self]. *)
Definition lift {S A} (r : exn + A) : M S A := fun self => (r, self).

Definition get_self {S} : M S S := fun self => (inr self, self).

Definition modify {S} (f : S -> S) : M S unit := fun self => (inr tt, f self).

(** [try: body  except Exception as e: handler e]. *)
Definition try_except {S A} (body : M S A) (handler : exn -> M S A) : M S A :=
  fun self =>
    match body self with
    | (inr x, self') => (inr x, self')
    | (inl e, self') => handler e self'
    end.

(** A method call on an attribute of [self]: run [c] on the attribute and
    store the attribute's final state back. *)
Definition on_attr {S T A} (proj : S -> T) (upd : T -> S -> S) (c : M T A) : M S A :=
  fun self =>
    let '(r, attr') := c (proj self) in (r, upd attr' self).

Declare Scope method_scope.
Delimit Scope method_scope with method.
Notation "x <- c ;; k" := (bind c (fun x => k))
  (at level 100, c at next level, right associativity) : method_scope.
Notation "c ;; k" := (bind c (fun _ => k))
  (at level 100, right associativity) : method_scope.

(** [[f(x) for x in l]]: left to right, the first exception ends it. *)
Fixpoint comprehension {A B} (f : A -> exn + B) (l : list A) : exn + list B :=
  match l with
  | [] => inr []
  | x :: l' =>
      match f x with
      | inl e => inl e
      | inr y =>
          match comprehension f l' with
          | inl e => inl e
          | inr ys => inr (y :: ys)
          end
      end
  end.

(** ** The [requests] module *)

(** A [requests.Response]: the attributes the code reads, and the outcome
    of its method [json()]. *)
Record Response : Type := {
  status_code : Z;
  text : string;
  json : exn + value
}.

(** [requests.post(url, headers=, json=, timeout=)] and
    [requests.get(url, headers=, timeout=)]: each either returns a response
    or raises. *)
Record Requests : Type := {
  post : string -> gmap string string -> value -> Z -> exn + Response;
  get : string -> gmap string string -> Z -> exn + Response
}.

(** ** class PurdueGenAIProvider *)

Module PurdueGenAIProvider.

Record t : Type := {
  api_key : option string;
  base_url : string;
  model : string;
  headers : gmap string string
}.

(** [__init__(self, api_key, base_url=None, model=None)]. *)
Definition init (api_key base_url model : option string) : exn + t :=
  inr {| api_key := api_key;
         base_url := or_default base_url "https://genai.rcac.purdue.edu/api/v1";
         model := or_default model "llama3.2:latest";
         headers := <["Authorization" := "Bearer " +:+ format api_key]>
                      (<["Content-Type" := "application/json"]> ∅) |}.

(** The request body built at the start of [chat_completion]. *)
Definition payload (self : t) (messages : list value) (max_tokens : Z)
    (temperature : PrimFloat.float) : value :=
  PyDict (<["model" := PyStr (model self)]>
         (<["messages" := PyList messages]>
         (<["max_tokens" := PyInt max_tokens]>
         (<["temperature" := PyFloat temperature]> ∅)))).

Definition chat_completion (requests : Requests) (messages : list value)
    (max_tokens : Z) (temperature : PrimFloat.float) : M t value :=
  (self <- get_self ;;
   response <- lift (post requests (base_url self +:+ "/chat/completions")
                       (headers self)
                       (payload self messages max_tokens temperature) 30) ;;
   if status_code response =? 200 then
     lift (json response)
   else
     raise (Exception ("API Error: " +:+ str_int (status_code response)
                       +:+ " - " +:+ text response)))%method.

Definition list_models (requests : Requests) : M t value :=
  (self <- get_self ;;
   response <- lift (get requests (base_url self +:+ "/models")
                       (headers self) 10) ;;
   if status_code response =? 200 then
     body <- lift (json response) ;;
     models <- lift (getitem body (KStr "data")) ;;
     entries <- lift (iter models) ;;
     ids <- lift (comprehension (fun model => getitem model (KStr "id")) entries) ;;
     ret (PyList ids)
   else
     raise (Exception ("API Error: " +:+ str_int (status_code response))))%method.

End PurdueGenAIProvider.

(** ** class OpenClawAgent *)

(** The dict literal [{"role": role, "content": content}]. *)
Definition message (role : string) (content : value) : value :=
  PyDict (<["role" := PyStr role]> (<["content" := content]> ∅)).

Module OpenClawAgent.

Record t : Type := {
  name : string;
  genai_provider : PurdueGenAIProvider.t;
  system_prompt : string;
  conversation_history : list value
}.

Definition set_history (h : list value) (self : t) : t :=
  {| name := name self;
     genai_provider := genai_provider self;
     system_prompt := system_prompt self;
     conversation_history := h |}.

Definition set_provider (p : PurdueGenAIProvider.t) (self : t) : t :=
  {| name := name self;
     genai_provider := p;
     system_prompt := system_prompt self;
     conversation_history := conversation_history self |}.

(** [self.conversation_history.append(m)]. *)
Definition append (m : value) : M t unit :=
  modify (fun self => set_history (conversation_history self ++ [m]) self).

(** [__init__(self, name, genai_provider, system_prompt=None)]. *)
Definition init (name : string) (genai_provider : PurdueGenAIProvider.t)
    (system_prompt : option string) : exn + t :=
  let self :=
    {| name := name;
       genai_provider := genai_provider;
       system_prompt := or_default system_prompt "You are a helpful AI assistant.";
       conversation_history := [] |} in
  if truthy system_prompt then
    inr (set_history [message "system" (PyStr (format system_prompt))] self)
  else inr self.

(** [result["choices"][0]["message"]["content"]]. *)
Definition extract (result : value) : exn + value :=
  match getitem result (KStr "choices") with
  | inl e => inl e
  | inr choices =>
      match getitem choices (KInt 0) with
      | inl e => inl e
      | inr choice =>
          match getitem choice (KStr "message") with
          | inl e => inl e
          | inr msg => getitem msg (KStr "content")
          end
      end
  end.

(** The body of the [try] block of [process]. *)
Definition attempt (requests : Requests) (max_tokens : Z)
    (temperature : PrimFloat.float) : M t value :=
  (self <- get_self ;;
   result <- on_attr genai_provider set_provider
               (PurdueGenAIProvider.chat_completion requests
                  (conversation_history self) max_tokens temperature) ;;
   assistant_message <- lift (extract result) ;;
   append (message "assistant" assistant_message) ;;
   ret assistant_message)%method.

Definition process (requests : Requests) (user_input : string)
    (max_tokens : Z) (temperature : PrimFloat.float) : M t value :=
  (append (message "user" (PyStr user_input)) ;;
   try_except (attempt requests max_tokens temperature)
     (fun e => ret (PyStr ("Error: " +:+ str_exn e))))%method.

Definition reset_conversation : M t unit :=
  (modify (set_history []) ;;
   self <- get_self ;;
   if truthy (Some (system_prompt self)) then
     append (message "system" (PyStr (system_prompt self)))
   else ret tt)%method.

End OpenClawAgent.

(** ** The start of [main] *)

Section Main.

(** The literal that [main] passes to [os.getenv] as the default of
    [PURDUE_GENAI_API_KEY]; it is a credential and is kept abstract. *)
Variable default_api_key : string.

(** [os.getenv(key, default)]. *)
Definition getenv (environ : gmap string string) (key : string)
    (default : option string) : option string :=
  match environ !! key with
  | Some v => Some v
  | None => default
  end.

(** [main] up to the construction of the provider: [None] when it
    prints its error and returns without constructing anything. *)
Definition main_provider (environ : gmap string string)
    : option (exn + PurdueGenAIProvider.t) :=
  let GENAI_API_KEY :=
    getenv environ "PURDUE_GENAI_API_KEY" (Some default_api_key) in
  let GENAI_BASE_URL :=
    getenv environ "PURDUE_GENAI_BASE_URL"
      (Some "https://genai.rcac.purdue.edu/api/v1") in
  let GENAI_MODEL :=
    getenv environ "PURDUE_GENAI_MODEL" (Some "llama3.2:latest") in
  if negb (truthy GENAI_API_KEY) then None
  else Some (PurdueGenAIProvider.init GENAI_API_KEY GENAI_BASE_URL GENAI_MODEL).

End Main.

(** ** Vocabulary of the statements *)

(** The history that [process] sends: the old one and the user message. *)
Definition sent (user_input : string) (self : OpenClawAgent.t) : list value :=
  OpenClawAgent.conversation_history self ++ [message "user" (PyStr user_input)].

(** [m["role"] == "system"], for an element of the history. *)
Definition is_system (m : value) : bool :=
  match m with
  | PyDict d =>
      match d !! "role" with
      | Some (PyStr role) => String.eqb role "system"
      | _ => false
      end
  | _ => false
  end.

Definition first_non_system (h : list value) : option value :=
  List.find (fun m => negb (is_system m)) h.

(** The agents a program can hold: constructed by [__init__], then used
    through [process] and [reset_conversation]. *)
Inductive reachable : OpenClawAgent.t -> Prop :=
  | reachable_init name provider system_prompt self :
      OpenClawAgent.init name provider system_prompt = inr self ->
      reachable self
  | reachable_process requests user_input max_tokens temperature self :
      reachable self ->
      reachable (snd (OpenClawAgent.process requests user_input max_tokens
                        temperature self))
  | reachable_reset self :
      reachable self ->
      reachable (snd (OpenClawAgent.reset_conversation self)).

(** ** Stubs used in the scenarios *)

(** A server that answers every request with the same response. *)
Definition stub (r : Response) : Requests :=
  {| post := fun _ _ _ _ => inr r; get := fun _ _ _ => inr r |}.

(** A network on which no call completes. *)
Definition unreachable (e : exn) : Requests :=
  {| post := fun _ _ _ _ => inl e; get := fun _ _ _ => inl e |}.

(** The double-quote character, and a JSON string literal. *)
Definition dq : string := String (ascii_of_nat 34) EmptyString.
Definition quoted (s : string) : string := dq +:+ s +:+ dq.

(** A response with status 200 whose body parses to [v]. *)
Definition ok (body : string) (v : value) : Response :=
  {| status_code := 200; text := body; json := inr v |}.

(** The payload [{"choices": [{"message": {"content": c}}]}]. *)
Definition completion (c : value) : value :=
  PyDict {[ "choices" := PyList [PyDict {[ "message" := PyDict {[ "content" := c ]} ]}] ]}.

Definition hello : value := completion (PyStr "hello").

(** The body text [{"choices":[{"message":{"content":"hello"}}]}]. *)
Definition hello_text : string :=
  "{" +:+ quoted "choices" +:+ ":[{" +:+ quoted "message" +:+ ":{"
  +:+ quoted "content" +:+ ":" +:+ quoted "hello" +:+ "}}]}".

(** The response of the failure scenario: status 500, body [server error],
    which is not JSON. *)
Definition server_error : Response :=
  {| status_code := 500;
     text := "server error";
     json := inl (JSONDecodeError "Expecting value: line 1 column 1 (char 0)") |}.

(** The provider and the call of the scenarios. *)
Definition example_provider : PurdueGenAIProvider.t :=
  {| PurdueGenAIProvider.api_key := Some "k";
     PurdueGenAIProvider.base_url := "https://api.example/v1";
     PurdueGenAIProvider.model := "m1";
     PurdueGenAIProvider.headers :=
       <["Authorization" := "Bearer k"]> (<["Content-Type" := "application/json"]> ∅) |}.

Definition hi : list value := [message "user" (PyStr "hi")].

Definition example_agent (h : list value) : OpenClawAgent.t :=
  {| OpenClawAgent.name := "a";
     OpenClawAgent.genai_provider := example_provider;
     OpenClawAgent.system_prompt := "S";
     OpenClawAgent.conversation_history := h |}.

(** The payload [{"choices":[{"message":{"content":null}}]}]. *)
Definition null_content : value := completion PyNone.

Definition null_content_text : string :=
  "{" +:+ quoted "choices" +:+ ":[{" +:+ quoted "message" +:+ ":{"
  +:+ quoted "content" +:+ ":null}}]}".

(** The scenario of [list_models]: body [{"data":[{"id":"m1"},{"id":"m2"}]}]. *)
Definition two_models : value :=
  PyDict {[ "data" := PyList [PyDict {[ "id" := PyStr "m1" ]};
                              PyDict {[ "id" := PyStr "m2" ]}] ]}.

Definition two_models_text : string :=
  "{" +:+ quoted "data" +:+ ":[{" +:+ quoted "id" +:+ ":" +:+ quoted "m1"
  +:+ "},{" +:+ quoted "id" +:+ ":" +:+ quoted "m2" +:+ "}]}".

(** ** Sequences of calls *)

(** What a program can do to an agent it holds, from a given state on. *)
Inductive evolves (start : OpenClawAgent.t) : OpenClawAgent.t -> Prop :=
  | evolves_here : evolves start start
  | evolves_process requests user_input max_tokens temperature self :
      evolves start self ->
      evolves start (snd (OpenClawAgent.process requests user_input max_tokens
                            temperature self))
  | evolves_reset self :
      evolves start self ->
      evolves start (snd (OpenClawAgent.reset_conversation self)).

(** Several turns in a row, each with the same sampling parameters: the
    values returned, and the agent left. *)
Fixpoint converse (requests : Requests) (inputs : list string) (max_tokens : Z)
    (temperature : PrimFloat.float) (self : OpenClawAgent.t)
    : (exn + list value) * OpenClawAgent.t :=
  match inputs with
  | [] => (inr [], self)
  | user_input :: rest =>
      match OpenClawAgent.process requests user_input max_tokens temperature self with
      | (inl e, self') => (inl e, self')
      | (inr v, self') =>
          match converse requests rest max_tokens temperature self' with
          | (inl e, self'') => (inl e, self'')
          | (inr vs, self'') => (inr (v :: vs), self'')
          end
      end
  end.

(** A server that answers a chat completion with the content of the last
    message it was sent. *)
Definition echo : Requests :=
  {| post := fun _ _ body _ =>
       match getitem body (KStr "messages") with
       | inr (PyList messages) =>
           match last messages with
           | Some m =>
               match getitem m (KStr "content") with
               | inr c => inr {| status_code := 200; text := EmptyString;
                                 json := inr (PyDict {[ "choices" :=
                                   PyList [PyDict {[ "message" :=
                                     PyDict {[ "content" := c ]} ]}] ]}) |}
               | inl e => inl e
               end
           | None => inl (IndexError "list index out of range")
           end
       | inr _ => inl (TypeError "messages is not a list")
       | inl e => inl e
       end;
     get := fun _ _ _ => inl (RequestException "not served") |}.

(** * Scenarios, run *)

Example init_example :
  PurdueGenAIProvider.init (Some "k") (Some "https://api.example/v1") (Some "m1")
  = inr example_provider.
Proof. reflexivity. Qed.

Example chat_hello :
  fst (PurdueGenAIProvider.chat_completion (stub (ok hello_text hello)) hi 10 0.5 example_provider)
  = inr hello.
Proof. reflexivity. Qed.

Example process_hello :
  OpenClawAgent.process (stub (ok hello_text hello)) "hi" 10 0.5 (example_agent [])
  = (inr (PyStr "hello"),
     example_agent [message "user" (PyStr "hi"); message "assistant" (PyStr "hello")]).
Proof. reflexivity. Qed.

Example process_unreachable :
  OpenClawAgent.process (unreachable (RequestException "Connection refused")) "hi"
    10 0.5 (example_agent [])
  = (inr (PyStr "Error: Connection refused"),
     example_agent [message "user" (PyStr "hi")]).
Proof. reflexivity. Qed.

(** * Properties of the provider *)

Section Provider.

Import PurdueGenAIProvider.

Variable requests : Requests.
Variable self : t.

(** What [chat_completion] does, by the outcome of the POST. *)
Lemma chat_completion_run messages max_tokens temperature :
  chat_completion requests messages max_tokens temperature self =
  (match post requests (base_url self +:+ "/chat/completions") (headers self)
           (payload self messages max_tokens temperature) 30 with
   | inl e => inl e
   | inr response =>
       if status_code response =? 200 then json response
       else inl (Exception ("API Error: " +:+ str_int (status_code response)
                            +:+ " - " +:+ text response))
   end, self).
Proof.
  unfold chat_completion, bind, get_self, lift, raise.
  destruct (post _ _ _ _ _) as [e | response]; [reflexivity |].
  destruct (status_code response =? 200); reflexivity.
Qed.

(** What [list_models] does, by the outcome of the GET. *)
Lemma list_models_run :
  list_models requests self =
  (match get requests (base_url self +:+ "/models") (headers self) 10 with
   | inl e => inl e
   | inr response =>
       if status_code response =? 200 then
         match json response with
         | inl e => inl e
         | inr body =>
             match getitem body (KStr "data") with
             | inl e => inl e
             | inr models =>
                 match iter models with
                 | inl e => inl e
                 | inr entries =>
                     match comprehension
                             (fun model => getitem model (KStr "id")) entries with
                     | inl e => inl e
                     | inr ids => inr (PyList ids)
                     end
                 end
             end
         end
       else inl (Exception ("API Error: " +:+ str_int (status_code response)))
   end, self).
Proof.
  unfold list_models, bind, get_self, lift, raise, ret.
  destruct (get _ _ _ _) as [e | response]; [reflexivity |].
  destruct (status_code response =? 200); [| reflexivity].
  destruct (json response) as [e | body]; [reflexivity |].
  destruct (getitem body _) as [e | models]; [reflexivity |].
  destruct (iter models) as [e | entries]; [reflexivity |].
  destruct (comprehension _ entries); reflexivity.
Qed.

End Provider.

(** The extraction path on a payload of the expected shape. *)
Lemma extract_shape (d choice msg : gmap string value) (others : list value) (c : value) :
  d !! "choices" = Some (PyList (PyDict choice :: others)) ->
  choice !! "message" = Some (PyDict msg) ->
  msg !! "content" = Some c ->
  OpenClawAgent.extract (PyDict d) = inr c.
Proof.
  intros Hd Hchoice Hmsg. unfold OpenClawAgent.extract. cbn.
  rewrite Hd. cbn. change (Z.to_nat 0) with 0%nat. cbn.
  rewrite Hchoice. cbn. rewrite Hmsg. reflexivity.
Qed.

(** A list comprehension over entries that all have the key succeeds with
    the values, in the order of the entries. *)
Lemma comprehension_ids (entries ids : list value) :
  Forall2 (fun entry id => exists m : gmap string value,
             entry = PyDict m /\ m !! "id" = Some id) entries ids ->
  comprehension (fun model => getitem model (KStr "id")) entries = inr ids.
Proof.
  induction 1 as [| entry id entries ids (m & -> & Hid) _ IH]; [reflexivity |].
  cbn. rewrite Hid, IH. reflexivity.
Qed.

(** On status 200 with a body [{"data": [{"id": i1}, {"id": i2}, ...]}],
    [list_models] returns [[i1, i2, ...]], in the order received. *)
Lemma list_models_ids requests self response (d : gmap string value)
    (entries ids : list value) :
  get requests (PurdueGenAIProvider.base_url self +:+ "/models")
    (PurdueGenAIProvider.headers self) 10 = inr response ->
  status_code response = 200 ->
  json response = inr (PyDict d) ->
  d !! "data" = Some (PyList entries) ->
  Forall2 (fun entry id => exists m : gmap string value,
             entry = PyDict m /\ m !! "id" = Some id) entries ids ->
  fst (PurdueGenAIProvider.list_models requests self) = inr (PyList ids).
Proof.
  intros Hget Hstatus Hjson Hdata Hids.
  rewrite list_models_run, Hget, Hstatus, Hjson. cbn.
  rewrite Hdata. cbn. rewrite (comprehension_ids _ _ Hids). reflexivity.
Qed.

Example list_models_scenario :
  fst (PurdueGenAIProvider.list_models (stub (ok two_models_text two_models))
         example_provider)
  = inr (PyList [PyStr "m1"; PyStr "m2"]).
Proof. reflexivity. Qed.

(** ** What [chat_completion] returns *)

(** C1, as stated, fails: against the stub whose body is
    [{"choices":[{"message":{"content":"hello"}}]}], [chat_completion] does
    not return the string ["hello"]; it returns the parsed payload. *)
Lemma chat_completion_not_text :
  fst (PurdueGenAIProvider.chat_completion (stub (ok hello_text hello)) hi 10 0.5
         example_provider)
  <> inr (PyStr "hello").
Proof. rewrite chat_hello. discriminate. Qed.

(** C1, amended: for every response with status 200 whose body parses as
    JSON, [chat_completion] returns the whole parsed payload; when the
    payload has the shape [{"choices":[{"message":{"content": c}}...]}],
    the text [c] is what the extraction step of [process],
    [result["choices"][0]["message"]["content"]], takes out of it. *)
Theorem chat_completion_returns_payload
    requests self messages max_tokens temperature response
    (d choice msg : gmap string value) (others : list value) (c : value) :
  post requests (PurdueGenAIProvider.base_url self +:+ "/chat/completions")
    (PurdueGenAIProvider.headers self)
    (PurdueGenAIProvider.payload self messages max_tokens temperature) 30
  = inr response ->
  status_code response = 200 ->
  json response = inr (PyDict d) ->
  d !! "choices" = Some (PyList (PyDict choice :: others)) ->
  choice !! "message" = Some (PyDict msg) ->
  msg !! "content" = Some c ->
  fst (PurdueGenAIProvider.chat_completion requests messages max_tokens
         temperature self) = inr (PyDict d)
  /\ OpenClawAgent.extract (PyDict d) = inr c.
Proof.
  intros Hpost Hstatus Hjson Hd Hchoice Hmsg. split.
  - rewrite chat_completion_run, Hpost, Hstatus, Z.eqb_refl. exact Hjson.
  - exact (extract_shape _ _ _ _ _ Hd Hchoice Hmsg).
Qed.

Lemma chat_completion_returns_payload_witness :
  fst (PurdueGenAIProvider.chat_completion (stub (ok hello_text hello)) hi 10 0.5
         example_provider) = inr hello
  /\ OpenClawAgent.extract hello = inr (PyStr "hello").
Proof.
  apply (chat_completion_returns_payload (stub (ok hello_text hello))
           example_provider hi 10 0.5%float (ok hello_text hello)
           {[ "choices" := PyList [PyDict {[ "message" := PyDict {[ "content" := PyStr "hello" ]} ]}] ]}
           {[ "message" := PyDict {[ "content" := PyStr "hello" ]} ]}
           {[ "content" := PyStr "hello" ]} [] (PyStr "hello"));
    reflexivity.
Defined.

(** ** How [chat_completion] fails *)

(** C2, as stated, fails: a 200 body that parses but lacks the expected
    structure (here the empty object) is no failure of [chat_completion],
    which returns it. *)
Lemma chat_completion_accepts_any_payload :
  fst (PurdueGenAIProvider.chat_completion (stub (ok "{}" (PyDict ∅))) hi 10 0.5
         example_provider)
  = inr (PyDict ∅).
Proof. reflexivity. Qed.

(** C2, amended: whenever the status is not 200, [chat_completion] raises
    a plain [Exception] whose message is ["API Error: <status> - <body>"],
    with the status in decimal and the raw body text; when the network call
    raises, that exception propagates unchanged, and an exception of the
    HTTP library is distinct from the former; when a 200 body is not JSON,
    the exception of [json()] propagates; a 200 body that parses is
    returned whatever its structure. *)
Theorem chat_completion_errors requests self messages max_tokens temperature :
  let outcome :=
    post requests (PurdueGenAIProvider.base_url self +:+ "/chat/completions")
      (PurdueGenAIProvider.headers self)
      (PurdueGenAIProvider.payload self messages max_tokens temperature) 30 in
  let result :=
    fst (PurdueGenAIProvider.chat_completion requests messages max_tokens
           temperature self) in
  (forall response, outcome = inr response -> status_code response <> 200 ->
     result = inl (Exception ("API Error: " +:+ str_int (status_code response)
                              +:+ " - " +:+ text response)))
  /\ (forall e, outcome = inl e -> result = inl e)
  /\ (forall msg reason, RequestException msg <> Exception reason)
  /\ (forall response e, outcome = inr response -> status_code response = 200 ->
        json response = inl e -> result = inl e)
  /\ (forall response v, outcome = inr response -> status_code response = 200 ->
        json response = inr v -> result = inr v).
Proof.
  intros outcome result. subst result. rewrite chat_completion_run.
  fold outcome. cbn [fst]. repeat split.
  - intros response -> Hstatus.
    destruct (Z.eqb_spec (status_code response) 200); [contradiction | reflexivity].
  - intros e ->. reflexivity.
  - discriminate.
  - intros response e -> -> Hjson. exact Hjson.
  - intros response v -> -> Hjson. exact Hjson.
Qed.

Lemma chat_completion_errors_witness :
  fst (PurdueGenAIProvider.chat_completion (stub server_error) hi 10 0.5
         example_provider)
  = inl (Exception "API Error: 500 - server error").
Proof.
  apply (proj1 (chat_completion_errors (stub server_error) example_provider
                  hi 10 0.5%float) server_error).
  - reflexivity.
  - cbn. lia.
Defined.

(** ** Construction *)

(** C5, as stated, fails: constructing a provider without a credential
    creates an instance, whose authorization header is [Bearer None]. *)
Lemma init_without_credential :
  PurdueGenAIProvider.init None None None =
  inr {| PurdueGenAIProvider.api_key := None;
         PurdueGenAIProvider.base_url := "https://genai.rcac.purdue.edu/api/v1";
         PurdueGenAIProvider.model := "llama3.2:latest";
         PurdueGenAIProvider.headers :=
           <["Authorization" := "Bearer None"]>
             (<["Content-Type" := "application/json"]> ∅) |}.
Proof. reflexivity. Qed.

(** C5, amended: the constructor checks nothing and always creates an
    instance, which stores the credential it was given, absent or not; the
    check for a missing credential is made by [main] before construction:
    with an empty [PURDUE_GENAI_API_KEY], [main] constructs no provider. *)
Theorem init_total_guard_in_main :
  (forall api_key base_url model,
     exists p, PurdueGenAIProvider.init api_key base_url model = inr p
               /\ PurdueGenAIProvider.api_key p = api_key
               /\ PurdueGenAIProvider.headers p !! "Authorization"
                  = Some ("Bearer " +:+ format api_key))
  /\ (forall default_api_key (environ : gmap string string),
        main_provider default_api_key
          (<["PURDUE_GENAI_API_KEY" := EmptyString]> environ)
        = None).
Proof.
  split.
  - intros api_key base_url model. eexists. split; [reflexivity |].
    split; [reflexivity |]. cbn. apply lookup_insert_eq.
  - intros default_api_key environ. unfold main_provider, getenv.
    rewrite lookup_insert_eq. reflexivity.
Qed.

(** ** Errors of [list_models] *)

(** C7: on HTTP 500 with body [server error], [list_models] raises an
    exception whose message holds the status only, while [chat_completion]
    puts the body text after it. *)
Theorem list_models_error_omits_body :
  fst (PurdueGenAIProvider.list_models (stub server_error) example_provider)
  = inl (Exception "API Error: 500")
  /\ fst (PurdueGenAIProvider.chat_completion (stub server_error) hi 10 0.5
            example_provider)
     = inl (Exception "API Error: 500 - server error").
Proof. split; reflexivity. Qed.

(** * Properties of the agent *)

Section Agent.

Import OpenClawAgent.

Variable requests : Requests.
Variable user_input : string.
Variable max_tokens : Z.
Variable temperature : PrimFloat.float.

(** What [process] does, by the outcome of the completion call and of
    the extraction. *)
Lemma process_run (self : t) :
  process requests user_input max_tokens temperature self =
  match fst (PurdueGenAIProvider.chat_completion requests (sent user_input self)
               max_tokens temperature (genai_provider self)) with
  | inl e => (inr (PyStr ("Error: " +:+ str_exn e)), set_history (sent user_input self) self)
  | inr result =>
      match extract result with
      | inl e => (inr (PyStr ("Error: " +:+ str_exn e)), set_history (sent user_input self) self)
      | inr c =>
          (inr c, set_history (sent user_input self ++ [message "assistant" c]) self)
      end
  end.
Proof.
  unfold process, attempt, append, try_except, bind, modify, get_self,
    on_attr, lift, ret, sent.
  destruct self as [n p s h]. cbn [conversation_history genai_provider set_history
    set_provider name system_prompt].
  rewrite chat_completion_run. cbn [fst].
  destruct (post _ _ _ _ _) as [e | response]; [reflexivity |].
  destruct (if status_code response =? 200 then _ else _) as [e | result];
    [reflexivity |].
  destruct (extract result); reflexivity.
Qed.

(** [reset_conversation] returns, and leaves the system prompt alone or
    nothing in the history. *)
Lemma reset_conversation_run (self : t) :
  reset_conversation self =
  (inr tt,
   set_history (if truthy (Some (system_prompt self))
                then [message "system" (PyStr (system_prompt self))]
                else []) self).
Proof.
  unfold reset_conversation, append, bind, modify, get_self, ret.
  destruct self as [n p s h]. cbn [system_prompt set_history].
  destruct (truthy (Some s)); reflexivity.
Qed.

End Agent.

(** [process] on a successful response, as one equation. *)
Lemma process_on_success
    requests user_input max_tokens temperature (self : OpenClawAgent.t) response
    (d choice msg : gmap string value) (others : list value) (c : value) :
  post requests
    (PurdueGenAIProvider.base_url (OpenClawAgent.genai_provider self)
     +:+ "/chat/completions")
    (PurdueGenAIProvider.headers (OpenClawAgent.genai_provider self))
    (PurdueGenAIProvider.payload (OpenClawAgent.genai_provider self)
       (sent user_input self) max_tokens temperature) 30
  = inr response ->
  status_code response = 200 ->
  json response = inr (PyDict d) ->
  d !! "choices" = Some (PyList (PyDict choice :: others)) ->
  choice !! "message" = Some (PyDict msg) ->
  msg !! "content" = Some c ->
  OpenClawAgent.process requests user_input max_tokens temperature self
  = (inr c,
     OpenClawAgent.set_history
       (OpenClawAgent.conversation_history self
        ++ [message "user" (PyStr user_input); message "assistant" c]) self).
Proof.
  intros Hpost Hstatus Hjson Hd Hchoice Hmsg.
  rewrite process_run, chat_completion_run, Hpost, Hstatus, Z.eqb_refl, Hjson.
  cbn [fst]. rewrite (extract_shape _ _ _ _ _ Hd Hchoice Hmsg).
  unfold sent. rewrite <- app_assoc. reflexivity.
Qed.

(** ** The provider is not mutated *)

(** C8: after [chat_completion] and after [list_models], whatever the
    arguments and whatever the network returned or raised, the provider is
    the one before the call, so each of its fields is unchanged; the same
    holds of the provider of an agent after [process]. *)
Theorem provider_unchanged requests self messages max_tokens temperature :
  snd (PurdueGenAIProvider.chat_completion requests messages max_tokens
         temperature self) = self
  /\ snd (PurdueGenAIProvider.list_models requests self) = self
  /\ forall agent user_input,
       OpenClawAgent.genai_provider
         (snd (OpenClawAgent.process requests user_input max_tokens temperature agent))
       = OpenClawAgent.genai_provider agent.
Proof.
  split; [| split].
  - rewrite chat_completion_run. reflexivity.
  - rewrite list_models_run. reflexivity.
  - intros agent user_input. rewrite process_run.
    destruct (fst _) as [e | result]; [reflexivity |].
    destruct (OpenClawAgent.extract result); reflexivity.
Qed.

(** ** A successful turn *)

(** C3: for every history and every successful response (status 200, a
    payload with a first choice whose message has a content [c]),
    [process] returns [c] and leaves the history extended by exactly the
    user message and then the assistant message with content [c], which is
    its last element. *)
Theorem process_success
    requests user_input max_tokens temperature (self : OpenClawAgent.t) response
    (d choice msg : gmap string value) (others : list value) (c : value) :
  post requests
    (PurdueGenAIProvider.base_url (OpenClawAgent.genai_provider self)
     +:+ "/chat/completions")
    (PurdueGenAIProvider.headers (OpenClawAgent.genai_provider self))
    (PurdueGenAIProvider.payload (OpenClawAgent.genai_provider self)
       (sent user_input self) max_tokens temperature) 30
  = inr response ->
  status_code response = 200 ->
  json response = inr (PyDict d) ->
  d !! "choices" = Some (PyList (PyDict choice :: others)) ->
  choice !! "message" = Some (PyDict msg) ->
  msg !! "content" = Some c ->
  let after :=
    snd (OpenClawAgent.process requests user_input max_tokens temperature self) in
  fst (OpenClawAgent.process requests user_input max_tokens temperature self)
  = inr c
  /\ OpenClawAgent.conversation_history after
     = (OpenClawAgent.conversation_history self
        ++ [message "user" (PyStr user_input); message "assistant" c])%list
  /\ last (OpenClawAgent.conversation_history after) = Some (message "assistant" c).
Proof.
  intros Hpost Hstatus Hjson Hd Hchoice Hmsg after. subst after.
  rewrite (process_on_success _ _ _ _ _ _ _ _ _ _ _
             Hpost Hstatus Hjson Hd Hchoice Hmsg).
  cbn [fst snd]. destruct self as [n p s h].
  cbn [OpenClawAgent.conversation_history OpenClawAgent.set_history].
  repeat split.
  change (h ++ [message "user" (PyStr user_input); message "assistant" c])%list
    with (h ++ [message "user" (PyStr user_input)] ++ [message "assistant" c])%list.
  rewrite app_assoc. apply last_snoc.
Qed.

Lemma process_success_witness :
  fst (OpenClawAgent.process (stub (ok hello_text hello)) "hi" 10 0.5
         (example_agent [message "system" (PyStr "S")]))
  = inr (PyStr "hello")
  /\ OpenClawAgent.conversation_history
       (snd (OpenClawAgent.process (stub (ok hello_text hello)) "hi" 10 0.5
               (example_agent [message "system" (PyStr "S")])))
     = ([message "system" (PyStr "S")]
        ++ [message "user" (PyStr "hi"); message "assistant" (PyStr "hello")])%list
  /\ last (OpenClawAgent.conversation_history
             (snd (OpenClawAgent.process (stub (ok hello_text hello)) "hi" 10 0.5
                     (example_agent [message "system" (PyStr "S")]))))
     = Some (message "assistant" (PyStr "hello")).
Proof.
  apply (process_success (stub (ok hello_text hello)) "hi" 10 0.5%float
           (example_agent [message "system" (PyStr "S")]) (ok hello_text hello)
           {[ "choices" := PyList [PyDict {[ "message" := PyDict {[ "content" := PyStr "hello" ]} ]}] ]}
           {[ "message" := PyDict {[ "content" := PyStr "hello" ]} ]}
           {[ "content" := PyStr "hello" ]} [] (PyStr "hello"));
    reflexivity.
Defined.

(** ** A failed turn *)

(** C4: whenever the completion call raises, [process] does not raise: it
    returns the string ["Error: " + str(e)], and the history is the old one
    with the user message appended and nothing else, one element longer. *)
Theorem process_provider_failure
    requests user_input max_tokens temperature (self : OpenClawAgent.t) (e : exn) :
  fst (PurdueGenAIProvider.chat_completion requests (sent user_input self)
         max_tokens temperature (OpenClawAgent.genai_provider self)) = inl e ->
  let after :=
    snd (OpenClawAgent.process requests user_input max_tokens temperature self) in
  fst (OpenClawAgent.process requests user_input max_tokens temperature self)
  = inr (PyStr ("Error: " +:+ str_exn e))
  /\ OpenClawAgent.conversation_history after
     = (OpenClawAgent.conversation_history self
        ++ [message "user" (PyStr user_input)])%list
  /\ length (OpenClawAgent.conversation_history after)
     = S (length (OpenClawAgent.conversation_history self)).
Proof.
  intros Hraise after. subst after. rewrite process_run, Hraise. cbn [fst snd].
  destruct self as [n p s h]. unfold sent. cbn [OpenClawAgent.conversation_history
    OpenClawAgent.set_history].
  repeat split. rewrite length_app. cbn. lia.
Qed.

Lemma process_provider_failure_witness :
  fst (OpenClawAgent.process (stub server_error) "hi" 10 0.5 (example_agent []))
  = inr (PyStr "Error: API Error: 500 - server error")
  /\ OpenClawAgent.conversation_history
       (snd (OpenClawAgent.process (stub server_error) "hi" 10 0.5 (example_agent [])))
     = ([] ++ [message "user" (PyStr "hi")])%list
  /\ length (OpenClawAgent.conversation_history
               (snd (OpenClawAgent.process (stub server_error) "hi" 10 0.5
                       (example_agent []))))
     = 1%nat.
Proof.
  apply (process_provider_failure (stub server_error) "hi" 10 0.5%float
           (example_agent []) (Exception "API Error: 500 - server error")).
  reflexivity.
Defined.

(** ** Reset *)

(** The system prompt stored by the constructor is never empty, and no
    method assigns it. *)
Lemma reachable_system_prompt (self : OpenClawAgent.t) :
  reachable self -> truthy (Some (OpenClawAgent.system_prompt self)) = true.
Proof.
  induction 1 as [n p sp self Hinit | rq x mt temp self _ IH | self _ IH].
  - unfold OpenClawAgent.init in Hinit.
    destruct sp as [[| a s] |]; cbn in Hinit; injection Hinit as <-; reflexivity.
  - rewrite process_run.
    destruct (fst _) as [e | result]; [destruct self; exact IH |].
    destruct (OpenClawAgent.extract result); destruct self; exact IH.
  - rewrite reset_conversation_run. destruct self; exact IH.
Qed.

(** C6: [reset_conversation] returns and leaves a history that is empty or
    holds only the system message of the stored prompt; a [process] of [x]
    that succeeds right after it leaves that history followed by the user
    message [x] and the assistant message, so the first message that is not
    a system message is the user message [x]: nothing of the prior history
    remains. *)
Theorem reset_then_process
    requests x max_tokens temperature (self : OpenClawAgent.t) response
    (d choice msg : gmap string value) (others : list value) (c : value) :
  let fresh := snd (OpenClawAgent.reset_conversation self) in
  post requests
    (PurdueGenAIProvider.base_url (OpenClawAgent.genai_provider fresh)
     +:+ "/chat/completions")
    (PurdueGenAIProvider.headers (OpenClawAgent.genai_provider fresh))
    (PurdueGenAIProvider.payload (OpenClawAgent.genai_provider fresh)
       (sent x fresh) max_tokens temperature) 30
  = inr response ->
  status_code response = 200 ->
  json response = inr (PyDict d) ->
  d !! "choices" = Some (PyList (PyDict choice :: others)) ->
  choice !! "message" = Some (PyDict msg) ->
  msg !! "content" = Some c ->
  let after :=
    snd (OpenClawAgent.process requests x max_tokens temperature fresh) in
  fst (OpenClawAgent.reset_conversation self) = inr tt
  /\ (OpenClawAgent.conversation_history fresh = []
      \/ OpenClawAgent.conversation_history fresh
         = [message "system" (PyStr (OpenClawAgent.system_prompt self))])
  /\ fst (OpenClawAgent.process requests x max_tokens temperature fresh) = inr c
  /\ OpenClawAgent.conversation_history after
     = (OpenClawAgent.conversation_history fresh
        ++ [message "user" (PyStr x); message "assistant" c])%list
  /\ first_non_system (OpenClawAgent.conversation_history after)
     = Some (message "user" (PyStr x)).
Proof.
  intros fresh Hpost Hstatus Hjson Hd Hchoice Hmsg after. subst after.
  rewrite (process_on_success _ _ _ _ _ _ _ _ _ _ _
             Hpost Hstatus Hjson Hd Hchoice Hmsg).
  clear Hpost. subst fresh. rewrite reset_conversation_run. cbn [fst snd].
  destruct self as [n p s h].
  cbn [OpenClawAgent.conversation_history OpenClawAgent.set_history
       OpenClawAgent.system_prompt].
  destruct (truthy (Some s)).
  - split; [reflexivity |]. split; [right; reflexivity |]. repeat split.
  - split; [reflexivity |]. split; [left; reflexivity |]. repeat split.
Qed.

Lemma reset_then_process_witness :
  let self :=
    example_agent [message "system" (PyStr "S"); message "user" (PyStr "old");
                   message "assistant" (PyStr "older")] in
  let fresh := snd (OpenClawAgent.reset_conversation self) in
  let after :=
    snd (OpenClawAgent.process (stub (ok hello_text hello)) "x" 10 0.5 fresh) in
  fst (OpenClawAgent.reset_conversation self) = inr tt
  /\ (OpenClawAgent.conversation_history fresh = []
      \/ OpenClawAgent.conversation_history fresh = [message "system" (PyStr "S")])
  /\ fst (OpenClawAgent.process (stub (ok hello_text hello)) "x" 10 0.5 fresh)
     = inr (PyStr "hello")
  /\ OpenClawAgent.conversation_history after
     = (OpenClawAgent.conversation_history fresh
        ++ [message "user" (PyStr "x"); message "assistant" (PyStr "hello")])%list
  /\ first_non_system (OpenClawAgent.conversation_history after)
     = Some (message "user" (PyStr "x")).
Proof.
  apply (reset_then_process (stub (ok hello_text hello)) "x" 10 0.5%float
           (example_agent [message "system" (PyStr "S"); message "user" (PyStr "old");
                           message "assistant" (PyStr "older")])
           (ok hello_text hello)
           {[ "choices" := PyList [PyDict {[ "message" := PyDict {[ "content" := PyStr "hello" ]} ]}] ]}
           {[ "message" := PyDict {[ "content" := PyStr "hello" ]} ]}
           {[ "content" := PyStr "hello" ]} [] (PyStr "hello"));
    reflexivity.
Defined.

(** C9: on every agent a program can hold, [reset_conversation] returns
    and leaves a history of exactly one element, the system message of the
    stored prompt; for an agent just constructed with no system prompt the
    history is empty and the stored prompt is the default one, so its
    history after a reset differs from its history after construction. *)
Theorem reset_reseeds_system_prompt (self : OpenClawAgent.t) :
  reachable self ->
  let fresh := snd (OpenClawAgent.reset_conversation self) in
  fst (OpenClawAgent.reset_conversation self) = inr tt
  /\ OpenClawAgent.conversation_history fresh
     = [message "system" (PyStr (OpenClawAgent.system_prompt self))]
  /\ (forall name provider,
        OpenClawAgent.init name provider None = inr self ->
        OpenClawAgent.conversation_history self = []
        /\ OpenClawAgent.system_prompt self = "You are a helpful AI assistant."
        /\ OpenClawAgent.conversation_history fresh
           <> OpenClawAgent.conversation_history self).
Proof.
  intros Hreach fresh. subst fresh.
  pose proof (reachable_system_prompt self Hreach) as Hprompt.
  rewrite reset_conversation_run, Hprompt. cbn [fst snd].
  split; [reflexivity |]. split; [destruct self; reflexivity |].
  intros n p Hinit. cbn in Hinit. injection Hinit as <-. cbn.
  repeat split. discriminate.
Qed.

Lemma reset_reseeds_system_prompt_witness :
  let self :=
    {| OpenClawAgent.name := "a";
       OpenClawAgent.genai_provider := example_provider;
       OpenClawAgent.system_prompt := "You are a helpful AI assistant.";
       OpenClawAgent.conversation_history := [] |} in
  OpenClawAgent.init "a" example_provider None = inr self
  /\ OpenClawAgent.conversation_history self = []
  /\ OpenClawAgent.conversation_history (snd (OpenClawAgent.reset_conversation self))
     = [message "system" (PyStr "You are a helpful AI assistant.")].
Proof.
  intros self.
  assert (Hinit : OpenClawAgent.init "a" example_provider None = inr self)
    by reflexivity.
  destruct (reset_reseeds_system_prompt self
              (reachable_init "a" example_provider None self Hinit))
    as (_ & Hfresh & _).
  split; [exact Hinit |]. split; [reflexivity | exact Hfresh].
Defined.

(** ** [process] never raises *)

(** A 200 payload without [choices] raises in the extraction, and
    [process] returns the text of the [KeyError]. *)
Example process_empty_payload :
  fst (OpenClawAgent.process (stub (ok "{}" (PyDict ∅))) "hi" 10 0.5 (example_agent []))
  = inr (PyStr "Error: 'choices'").
Proof. reflexivity. Qed.

(** C10: on a 200 payload whose content is [null], nothing raises in the
    extraction and [process], declared to return a [str], returns [None],
    which is not a string. *)
Lemma process_returns_none :
  fst (OpenClawAgent.process (stub (ok null_content_text null_content)) "hi" 10 0.5
         (example_agent []))
  = inr PyNone
  /\ ~ exists s,
       fst (OpenClawAgent.process (stub (ok null_content_text null_content))
              "hi" 10 0.5 (example_agent []))
       = inr (PyStr s).
Proof.
  assert (H : fst (OpenClawAgent.process (stub (ok null_content_text null_content))
                     "hi" 10 0.5 (example_agent [])) = inr PyNone) by reflexivity.
  split; [exact H |]. intros [s Hs]. rewrite H in Hs. discriminate.
Qed.

(** [process] never propagates an exception: for every input and every
    behaviour of the provider it returns a value; when the completion call
    raises [e], or returns a payload on which the extraction raises [e],
    that value is the string ["Error: " + str(e)]; when the extraction
    finds a content, the value is that content. *)
Theorem process_total
    requests user_input max_tokens temperature (self : OpenClawAgent.t) :
  let outcome :=
    fst (PurdueGenAIProvider.chat_completion requests (sent user_input self)
           max_tokens temperature (OpenClawAgent.genai_provider self)) in
  exists v,
    fst (OpenClawAgent.process requests user_input max_tokens temperature self)
    = inr v
    /\ (forall e, outcome = inl e -> v = PyStr ("Error: " +:+ str_exn e))
    /\ (forall result e, outcome = inr result ->
          OpenClawAgent.extract result = inl e ->
          v = PyStr ("Error: " +:+ str_exn e))
    /\ (forall result c, outcome = inr result ->
          OpenClawAgent.extract result = inr c -> v = c).
Proof.
  intros outcome. rewrite process_run. fold outcome.
  destruct outcome as [e | result].
  - eexists. split; [reflexivity |]. repeat split; intros; congruence.
  - destruct (OpenClawAgent.extract result) as [e | c] eqn:Hextract.
    + eexists. split; [reflexivity |]. repeat split; intros; congruence.
    + eexists. split; [reflexivity |]. repeat split; intros; congruence.
Qed.

Lemma process_total_witness :
  exists v,
    fst (OpenClawAgent.process (stub (ok "{}" (PyDict ∅))) "hi" 10 0.5
           (example_agent []))
    = inr v
    /\ v = PyStr "Error: 'choices'".
Proof.
  destruct (process_total (stub (ok "{}" (PyDict ∅))) "hi" 10 0.5%float
              (example_agent [])) as (v & Hv & _ & Hextract & _).
  exists v. split; [exact Hv |].
  apply (Hextract (PyDict ∅) (KeyError (KStr "choices"))); reflexivity.
Defined.

(** * Further properties of the provider *)

Lemma list_models_ids_witness :
  fst (PurdueGenAIProvider.list_models (stub (ok two_models_text two_models))
         example_provider)
  = inr (PyList [PyStr "m1"; PyStr "m2"]).
Proof.
  apply (list_models_ids (stub (ok two_models_text two_models)) example_provider
           (ok two_models_text two_models)
           {[ "data" := PyList [PyDict {[ "id" := PyStr "m1" ]};
                                PyDict {[ "id" := PyStr "m2" ]}] ]}
           [PyDict {[ "id" := PyStr "m1" ]}; PyDict {[ "id" := PyStr "m2" ]}]
           [PyStr "m1"; PyStr "m2"]); try reflexivity.
  repeat constructor; eexists; split; reflexivity.
Defined.

(** A comprehension over dicts of which one lacks the key raises the
    [KeyError] of that key. *)
Lemma comprehension_missing_id (entries : list value) :
  Forall (fun entry => exists m : gmap string value, entry = PyDict m) entries ->
  Exists (fun entry => exists m : gmap string value,
            entry = PyDict m /\ m !! "id" = None) entries ->
  comprehension (fun model => getitem model (KStr "id")) entries
  = inl (KeyError (KStr "id")).
Proof.
  induction entries as [| entry entries IH]; intros Hall Hex.
  - inversion Hex.
  - apply Forall_cons in Hall as [[m ->] Hall]. cbn.
    destruct (m !! "id") as [v |] eqn:Hid; [| reflexivity].
    rewrite IH; [reflexivity | exact Hall |].
    apply Exists_cons in Hex as [(m' & Heq & Hnone) | Hex]; [| exact Hex].
    injection Heq as <-. congruence.
Qed.

(** [list_models] returns all the identifiers or none: on a 200 body
    without the key [data] it raises [KeyError('data')], and when the
    entries are dicts of which one has no [id] it raises [KeyError('id')],
    whatever the other entries hold. *)
Theorem list_models_all_or_nothing requests self response (d : gmap string value) :
  get requests (PurdueGenAIProvider.base_url self +:+ "/models")
    (PurdueGenAIProvider.headers self) 10 = inr response ->
  status_code response = 200 ->
  json response = inr (PyDict d) ->
  (d !! "data" = None ->
   fst (PurdueGenAIProvider.list_models requests self)
   = inl (KeyError (KStr "data")))
  /\ (forall entries,
        d !! "data" = Some (PyList entries) ->
        Forall (fun entry => exists m : gmap string value, entry = PyDict m) entries ->
        Exists (fun entry => exists m : gmap string value,
                  entry = PyDict m /\ m !! "id" = None) entries ->
        fst (PurdueGenAIProvider.list_models requests self)
        = inl (KeyError (KStr "id"))).
Proof.
  intros Hget Hstatus Hjson.
  rewrite list_models_run, Hget, Hstatus, Z.eqb_refl, Hjson. cbn [fst getitem].
  split.
  - intros ->. reflexivity.
  - intros entries -> Hall Hex. cbn [iter].
    rewrite (comprehension_missing_id _ Hall Hex). reflexivity.
Qed.

Lemma list_models_all_or_nothing_witness :
  fst (PurdueGenAIProvider.list_models
         (stub (ok "" (PyDict {[ "data" :=
            PyList [PyDict {[ "id" := PyStr "m1" ]};
                    PyDict {[ "name" := PyStr "m2" ]}] ]})))
         example_provider)
  = inl (KeyError (KStr "id")).
Proof.
  eapply (proj2 (list_models_all_or_nothing
                   (stub (ok "" (PyDict {[ "data" :=
                      PyList [PyDict {[ "id" := PyStr "m1" ]};
                              PyDict {[ "name" := PyStr "m2" ]}] ]})))
                   example_provider _ _ eq_refl eq_refl eq_refl)).
  - reflexivity.
  - repeat constructor; eexists; reflexivity.
  - apply Exists_cons_tl, Exists_cons_hd. eexists. split; reflexivity.
Defined.

(** The constructor never leaves the base URL or the model empty: a
    missing or empty argument gives the default, any other is kept. *)
Theorem init_defaults api_key base_url model p :
  PurdueGenAIProvider.init api_key base_url model = inr p ->
  PurdueGenAIProvider.base_url p <> EmptyString
  /\ PurdueGenAIProvider.model p <> EmptyString
  /\ PurdueGenAIProvider.base_url p
     = (if truthy base_url then format base_url
        else "https://genai.rcac.purdue.edu/api/v1")
  /\ PurdueGenAIProvider.model p
     = (if truthy model then format model else "llama3.2:latest").
Proof.
  intros Hinit. injection Hinit as <-. cbn.
  destruct base_url as [[| a s] |], model as [[| a' s'] |]; cbn;
    repeat split; discriminate.
Qed.

Lemma init_defaults_witness :
  PurdueGenAIProvider.base_url example_provider <> EmptyString
  /\ PurdueGenAIProvider.model example_provider <> EmptyString
  /\ PurdueGenAIProvider.base_url example_provider = "https://api.example/v1"
  /\ PurdueGenAIProvider.model example_provider = "m1".
Proof.
  apply (init_defaults (Some "k") (Some "https://api.example/v1") (Some "m1")
           example_provider).
  reflexivity.
Defined.



(** * Further properties of the agent *)

(** The two ways [process] ends: the error text and the user message
    alone, or the content and both messages. *)
Lemma process_cases requests user_input max_tokens temperature
    (self : OpenClawAgent.t) :
  (exists e,
     OpenClawAgent.process requests user_input max_tokens temperature self
     = (inr (PyStr ("Error: " +:+ str_exn e)),
        OpenClawAgent.set_history (sent user_input self) self))
  \/ (exists c,
        OpenClawAgent.process requests user_input max_tokens temperature self
        = (inr c,
           OpenClawAgent.set_history
             (sent user_input self ++ [message "assistant" c]) self)).
Proof.
  rewrite process_run.
  destruct (fst _) as [e | result]; [left; exists e; reflexivity |].
  destruct (OpenClawAgent.extract result) as [e | c];
    [left; exists e | right; exists c]; reflexivity.
Qed.

(** [process] makes one request and nothing else of the network matters:
    two networks that answer alike the POST to [<base>/chat/completions]
    with the provider's headers, the timeout 30 and the body holding the
    old history followed by the new user message, give the same result and
    the same agent. *)
Theorem process_single_request requests requests' user_input max_tokens temperature
    (self : OpenClawAgent.t) :
  let provider := OpenClawAgent.genai_provider self in
  let body :=
    PurdueGenAIProvider.payload provider
      (OpenClawAgent.conversation_history self
       ++ [message "user" (PyStr user_input)]) max_tokens temperature in
  post requests (PurdueGenAIProvider.base_url provider +:+ "/chat/completions")
    (PurdueGenAIProvider.headers provider) body 30
  = post requests' (PurdueGenAIProvider.base_url provider +:+ "/chat/completions")
      (PurdueGenAIProvider.headers provider) body 30 ->
  getitem body (KStr "messages")
  = inr (PyList (OpenClawAgent.conversation_history self
                 ++ [message "user" (PyStr user_input)]))
  /\ OpenClawAgent.process requests user_input max_tokens temperature self
     = OpenClawAgent.process requests' user_input max_tokens temperature self.
Proof.
  intros provider body Hsame. split; [reflexivity |].
  rewrite !process_run, !chat_completion_run. fold provider.
  unfold sent. fold body. rewrite Hsame. reflexivity.
Qed.

Lemma process_single_request_witness :
  OpenClawAgent.process (stub server_error) "hi" 10 0.5 (example_agent [])
  = OpenClawAgent.process
      {| post := fun _ _ _ _ => inr server_error;
         get := fun _ _ _ => inl (RequestException "down") |}
      "hi" 10 0.5 (example_agent []).
Proof.
  apply (process_single_request (stub server_error)
           {| post := fun _ _ _ _ => inr server_error;
              get := fun _ _ _ => inl (RequestException "down") |}
           "hi" 10 0.5%float (example_agent [])).
  reflexivity.
Defined.

(** [process] only appends: whatever the network does, the old history is
    kept as it was, the user message follows it, and after that comes
    either nothing or the one assistant message whose content is the value
    returned; the name and the system prompt of the agent are unchanged. *)
Theorem process_append_only requests user_input max_tokens temperature
    (self : OpenClawAgent.t) :
  let result :=
    fst (OpenClawAgent.process requests user_input max_tokens temperature self) in
  let after :=
    snd (OpenClawAgent.process requests user_input max_tokens temperature self) in
  exists tail,
    OpenClawAgent.conversation_history after
    = (OpenClawAgent.conversation_history self
       ++ message "user" (PyStr user_input) :: tail)%list
    /\ ((tail = [] /\ exists e, result = inr (PyStr ("Error: " +:+ str_exn e)))
        \/ exists c, tail = [message "assistant" c] /\ result = inr c)
    /\ OpenClawAgent.name after = OpenClawAgent.name self
    /\ OpenClawAgent.system_prompt after = OpenClawAgent.system_prompt self.
Proof.
  intros result after. subst result after.
  destruct (process_cases requests user_input max_tokens temperature self)
    as [[e ->] | [c ->]]; destruct self as [n p s h]; unfold sent; cbn.
  - exists []. repeat split. left. split; [reflexivity |]. exists e. reflexivity.
  - exists [message "assistant" c]. rewrite <- app_assoc. repeat split.
    right. exists c. split; reflexivity.
Qed.

(** [reset_conversation] forgets the history it finds: its result does not
    depend on it, a second reset changes nothing more, and the name, the
    provider and the system prompt are kept. *)
Theorem reset_conversation_idempotent (self : OpenClawAgent.t) (h : list value) :
  let fresh := snd (OpenClawAgent.reset_conversation self) in
  snd (OpenClawAgent.reset_conversation (OpenClawAgent.set_history h self)) = fresh
  /\ snd (OpenClawAgent.reset_conversation fresh) = fresh
  /\ OpenClawAgent.name fresh = OpenClawAgent.name self
  /\ OpenClawAgent.genai_provider fresh = OpenClawAgent.genai_provider self
  /\ OpenClawAgent.system_prompt fresh = OpenClawAgent.system_prompt self.
Proof.
  intros fresh. subst fresh. rewrite !reset_conversation_run.
  destruct self as [n p s h0]. cbn. repeat split.
Qed.

(** What [process] and [reset_conversation] never change. *)
Lemma evolves_frame (start self : OpenClawAgent.t) :
  evolves start self ->
  OpenClawAgent.name self = OpenClawAgent.name start
  /\ OpenClawAgent.genai_provider self = OpenClawAgent.genai_provider start
  /\ OpenClawAgent.system_prompt self = OpenClawAgent.system_prompt start.
Proof.
  induction 1 as [| rq x mt temp self _ IH | self _ IH].
  - repeat split.
  - destruct (process_cases rq x mt temp self) as [[e ->] | [c ->]];
      destruct self; exact IH.
  - rewrite reset_conversation_run. destruct self; exact IH.
Qed.

(** An agent constructed with a system prompt that is not empty comes back
    to its state after construction by [reset_conversation], whatever
    turns and resets happened in between. *)
Theorem reset_restores_constructed name provider prompt (start self : OpenClawAgent.t) :
  truthy (Some prompt) = true ->
  OpenClawAgent.init name provider (Some prompt) = inr start ->
  evolves start self ->
  snd (OpenClawAgent.reset_conversation self) = start.
Proof.
  intros Hprompt Hinit Hevolves.
  destruct (evolves_frame _ _ Hevolves) as (Hname & Hprovider & Hsystem).
  unfold OpenClawAgent.init in Hinit. rewrite Hprompt in Hinit.
  injection Hinit as <-. rewrite reset_conversation_run.
  destruct self as [n p s h]. cbn in *. subst n p s.
  unfold or_default. rewrite !Hprompt. reflexivity.
Qed.

Lemma reset_restores_constructed_witness :
  snd (OpenClawAgent.reset_conversation
         (snd (OpenClawAgent.process (stub (ok hello_text hello)) "hi" 10 0.5
                 (example_agent [message "system" (PyStr "S")]))))
  = example_agent [message "system" (PyStr "S")].
Proof.
  apply (reset_restores_constructed "a" example_provider "S").
  - reflexivity.
  - reflexivity.
  - apply evolves_process, evolves_here.
Defined.

(** ** Error texts *)

(** On a response whose status is not 200, [process] returns the text
    ["Error: API Error: <status> - <body>"] and the history gains the user
    message only. *)
Theorem process_http_error_text requests user_input max_tokens temperature
    (self : OpenClawAgent.t) response :
  post requests
    (PurdueGenAIProvider.base_url (OpenClawAgent.genai_provider self)
     +:+ "/chat/completions")
    (PurdueGenAIProvider.headers (OpenClawAgent.genai_provider self))
    (PurdueGenAIProvider.payload (OpenClawAgent.genai_provider self)
       (sent user_input self) max_tokens temperature) 30
  = inr response ->
  status_code response <> 200 ->
  OpenClawAgent.process requests user_input max_tokens temperature self
  = (inr (PyStr ("Error: API Error: " +:+ str_int (status_code response)
                 +:+ " - " +:+ text response)),
     OpenClawAgent.set_history
       (OpenClawAgent.conversation_history self
        ++ [message "user" (PyStr user_input)]) self).
Proof.
  intros Hpost Hstatus. rewrite process_run, chat_completion_run, Hpost.
  destruct (Z.eqb_spec (status_code response) 200); [contradiction |].
  reflexivity.
Qed.

Lemma process_http_error_text_witness :
  OpenClawAgent.process (stub server_error) "hi" 10 0.5 (example_agent [])
  = (inr (PyStr "Error: API Error: 500 - server error"),
     example_agent [message "user" (PyStr "hi")]).
Proof.
  apply (process_http_error_text (stub server_error) "hi" 10 0.5%float
           (example_agent []) server_error).
  - reflexivity.
  - cbn. lia.
Defined.

(** On a 200 payload that is a dict lacking part of the expected
    structure, [process] returns the text of the exception of the
    extraction: ["Error: 'choices'"] without the key [choices],
    ["Error: list index out of range"] for an empty list of choices,
    ["Error: 'message'"] and ["Error: 'content'"] when the first choice or
    its message lacks the key; the history gains the user message only. *)
Theorem process_malformed_payload requests user_input max_tokens temperature
    (self : OpenClawAgent.t) response (d : gmap string value) :
  post requests
    (PurdueGenAIProvider.base_url (OpenClawAgent.genai_provider self)
     +:+ "/chat/completions")
    (PurdueGenAIProvider.headers (OpenClawAgent.genai_provider self))
    (PurdueGenAIProvider.payload (OpenClawAgent.genai_provider self)
       (sent user_input self) max_tokens temperature) 30
  = inr response ->
  status_code response = 200 ->
  json response = inr (PyDict d) ->
  let outcome text :=
    OpenClawAgent.process requests user_input max_tokens temperature self
    = (inr (PyStr text), OpenClawAgent.set_history (sent user_input self) self) in
  (d !! "choices" = None -> outcome "Error: 'choices'")
  /\ (d !! "choices" = Some (PyList []) -> outcome "Error: list index out of range")
  /\ (forall (choice : gmap string value) others,
        d !! "choices" = Some (PyList (PyDict choice :: others)) ->
        choice !! "message" = None -> outcome "Error: 'message'")
  /\ (forall (choice msg : gmap string value) others,
        d !! "choices" = Some (PyList (PyDict choice :: others)) ->
        choice !! "message" = Some (PyDict msg) ->
        msg !! "content" = None -> outcome "Error: 'content'").
Proof.
  intros Hpost Hstatus Hjson outcome. subst outcome. cbv beta.
  rewrite process_run, chat_completion_run, Hpost, Hstatus, Z.eqb_refl, Hjson.
  cbn [fst]. unfold OpenClawAgent.extract. cbn [getitem].
  repeat split.
  - intros ->. reflexivity.
  - intros ->. reflexivity.
  - intros choice others -> Hmessage. unfold index. cbn.
    change (Z.to_nat 0) with 0%nat. cbn. rewrite Hmessage. reflexivity.
  - intros choice msg others -> Hmessage Hcontent. unfold index. cbn.
    change (Z.to_nat 0) with 0%nat. cbn. rewrite Hmessage. cbn.
    rewrite Hcontent. reflexivity.
Qed.

Lemma process_malformed_payload_witness :
  OpenClawAgent.process (stub (ok "" (PyDict {[ "choices" := PyList [] ]})))
    "hi" 10 0.5 (example_agent [])
  = (inr (PyStr "Error: list index out of range"),
     OpenClawAgent.set_history (sent "hi" (example_agent [])) (example_agent [])).
Proof.
  apply (proj1 (proj2 (process_malformed_payload
                         (stub (ok "" (PyDict {[ "choices" := PyList [] ]})))
                         "hi" 10 0.5%float (example_agent [])
                         (ok "" (PyDict {[ "choices" := PyList [] ]}))
                         {[ "choices" := PyList [] ]} eq_refl eq_refl eq_refl))).
  reflexivity.
Defined.

(** ** Turns in a row *)

(** A failed turn leaves its user message behind: when a turn fails and
    the next one succeeds, the history holds the two user messages one after
    the other, then the assistant message of the second. *)
Theorem failed_then_success
    requests requests' x x' max_tokens temperature max_tokens' temperature'
    (self : OpenClawAgent.t) (e : exn) response
    (d choice msg : gmap string value) (others : list value) (c : value) :
  let provider := OpenClawAgent.genai_provider self in
  let failed :=
    snd (OpenClawAgent.process requests x max_tokens temperature self) in
  fst (PurdueGenAIProvider.chat_completion requests (sent x self) max_tokens
         temperature provider) = inl e ->
  post requests' (PurdueGenAIProvider.base_url provider +:+ "/chat/completions")
    (PurdueGenAIProvider.headers provider)
    (PurdueGenAIProvider.payload provider
       (OpenClawAgent.conversation_history self
        ++ [message "user" (PyStr x); message "user" (PyStr x')])
       max_tokens' temperature') 30
  = inr response ->
  status_code response = 200 ->
  json response = inr (PyDict d) ->
  d !! "choices" = Some (PyList (PyDict choice :: others)) ->
  choice !! "message" = Some (PyDict msg) ->
  msg !! "content" = Some c ->
  OpenClawAgent.conversation_history
    (snd (OpenClawAgent.process requests' x' max_tokens' temperature' failed))
  = (OpenClawAgent.conversation_history self
     ++ [message "user" (PyStr x); message "user" (PyStr x');
         message "assistant" c])%list.
Proof.
  intros provider failed Hraise Hpost Hstatus Hjson Hd Hchoice Hmsg.
  subst failed provider. rewrite (process_run requests), Hraise. cbn [snd].
  destruct self as [n p s h]. unfold sent in *.
  cbn [OpenClawAgent.conversation_history OpenClawAgent.genai_provider
       OpenClawAgent.set_history] in *.
  erewrite process_on_success; eauto.
  - cbn. rewrite <- app_assoc. reflexivity.
  - unfold sent. cbn. rewrite <- app_assoc. exact Hpost.
Qed.

Lemma failed_then_success_witness :
  OpenClawAgent.conversation_history
    (snd (OpenClawAgent.process (stub (ok hello_text hello)) "again" 10 0.5
            (snd (OpenClawAgent.process (stub server_error) "hi" 10 0.5
                    (example_agent [])))))
  = [message "user" (PyStr "hi"); message "user" (PyStr "again");
     message "assistant" (PyStr "hello")].
Proof.
  apply (failed_then_success (stub server_error) (stub (ok hello_text hello))
           "hi" "again" 10 0.5%float 10 0.5%float (example_agent [])
           (Exception "API Error: 500 - server error") (ok hello_text hello)
           {[ "choices" := PyList [PyDict {[ "message" := PyDict {[ "content" := PyStr "hello" ]} ]}] ]}
           {[ "message" := PyDict {[ "content" := PyStr "hello" ]} ]}
           {[ "content" := PyStr "hello" ]} [] (PyStr "hello"));
    reflexivity.
Defined.

(** One turn against the echoing server. *)
Lemma process_echo user_input max_tokens temperature (self : OpenClawAgent.t) :
  OpenClawAgent.process echo user_input max_tokens temperature self
  = (inr (PyStr user_input),
     OpenClawAgent.set_history
       (OpenClawAgent.conversation_history self
        ++ [message "user" (PyStr user_input);
            message "assistant" (PyStr user_input)]) self).
Proof.
  eapply process_on_success with
    (response := {| status_code := 200; text := EmptyString;
                    json := inr (completion (PyStr user_input)) |});
    try reflexivity.
  unfold echo, sent. cbn [post].
  change (getitem (PurdueGenAIProvider.payload _ ?l _ _) (KStr "messages"))
    with (@inr exn value (PyList l)).
  cbv iota beta. rewrite last_snoc. reflexivity.
Qed.

(** Against a server that echoes the last message it receives, any number
    of turns returns the inputs, in order, and leaves the history extended
    by the pairs of a user message and the assistant message repeating it:
    each request carried the message just appended as its last one. *)
Theorem converse_echo (inputs : list string) max_tokens temperature
    (self : OpenClawAgent.t) :
  fst (converse echo inputs max_tokens temperature self) = inr (PyStr <$> inputs)
  /\ OpenClawAgent.conversation_history
       (snd (converse echo inputs max_tokens temperature self))
     = (OpenClawAgent.conversation_history self
        ++ concat ((fun q => [message "user" (PyStr q);
                              message "assistant" (PyStr q)]) <$> inputs))%list.
Proof.
  revert self. induction inputs as [| q inputs IH]; intros self.
  - cbn. rewrite app_nil_r. split; reflexivity.
  - cbn [converse]. rewrite process_echo.
    specialize (IH (OpenClawAgent.set_history
                      (OpenClawAgent.conversation_history self
                       ++ [message "user" (PyStr q); message "assistant" (PyStr q)])
                      self)).
    destruct (converse echo inputs max_tokens temperature _) as [[e | vs] self'].
    + destruct IH as [IH _]. discriminate IH.
    + destruct IH as [IHv IHh]. cbn [fst snd] in *.
      injection IHv as ->. split; [reflexivity |].
      rewrite IHh. destruct self as [n p s h]. cbn.
      rewrite <- app_assoc. reflexivity.
Qed.

(** ** The system message stays first *)

(** For an agent constructed with a system prompt that is not empty, the
    history always starts with the system message of that prompt: turns
    only append after it and a reset puts it back. *)
Theorem system_message_stays_first name provider prompt
    (start self : OpenClawAgent.t) :
  truthy (Some prompt) = true ->
  OpenClawAgent.init name provider (Some prompt) = inr start ->
  evolves start self ->
  head (OpenClawAgent.conversation_history self)
  = Some (message "system" (PyStr prompt)).
Proof.
  intros Hprompt Hinit Hevolves.
  unfold OpenClawAgent.init in Hinit. rewrite Hprompt in Hinit.
  injection Hinit as <-.
  induction Hevolves as [| rq x mt temp self Hevolves IH | self Hevolves _].
  - reflexivity.
  - destruct (process_cases rq x mt temp self) as [[e ->] | [c ->]];
      destruct self as [n p s [| m h]]; try discriminate IH; exact IH.
  - destruct (evolves_frame _ _ Hevolves) as (_ & _ & Hsystem).
    rewrite reset_conversation_run. destruct self as [n p s h]. cbn in *.
    subst s. unfold or_default. rewrite !Hprompt. reflexivity.
Qed.

Lemma system_message_stays_first_witness :
  head (OpenClawAgent.conversation_history
          (snd (OpenClawAgent.process (stub server_error) "hi" 10 0.5
                  (example_agent [message "system" (PyStr "S")]))))
  = Some (message "system" (PyStr "S")).
Proof.
  apply (system_message_stays_first "a" example_provider "S"
           (example_agent [message "system" (PyStr "S")])).
  - reflexivity.
  - reflexivity.
  - apply evolves_process, evolves_here.
Defined.

(** ** Failures of [list_models] *)

(** [list_models] lets through the exception of a GET that cannot
    complete and the exception of [json()] on a 200 body that is not JSON,
    and on a 200 body whose [data] is an empty list it returns the empty
    list. *)
Theorem list_models_failures requests self :
  let outcome :=
    get requests (PurdueGenAIProvider.base_url self +:+ "/models")
      (PurdueGenAIProvider.headers self) 10 in
  let result := fst (PurdueGenAIProvider.list_models requests self) in
  (forall e, outcome = inl e -> result = inl e)
  /\ (forall response e, outcome = inr response -> status_code response = 200 ->
        json response = inl e -> result = inl e)
  /\ (forall response (d : gmap string value), outcome = inr response ->
        status_code response = 200 -> json response = inr (PyDict d) ->
        d !! "data" = Some (PyList []) -> result = inr (PyList [])).
Proof.
  intros outcome result. subst result. rewrite list_models_run. fold outcome.
  repeat split.
  - intros e ->. reflexivity.
  - intros response e -> -> ->. reflexivity.
  - intros response d -> -> -> Hdata. cbn. rewrite Hdata. reflexivity.
Qed.

Lemma list_models_failures_witness :
  fst (PurdueGenAIProvider.list_models (unreachable (RequestException "timed out"))
         example_provider)
  = inl (RequestException "timed out").
Proof.
  apply (proj1 (list_models_failures (unreachable (RequestException "timed out"))
                  example_provider)).
  reflexivity.
Defined.
